(** * Geo-heatmap rasterisation and dashboard edit mode: a shallow embedding

    This development embeds two classes of the repository,
    [GeoHeatmapSeries] (ts/Series/GeoHeatmap/GeoHeatmapSeries.ts) and the
    dashboard [EditMode] controller, and proves properties of their
    methods.

    Numbers.  A JavaScript [number] is an IEEE-754 binary64 value.  The
    general theorems read the arithmetic of the source exactly, over the
    rationals [Q]: [+ - * /] are the field operations, [Math.floor],
    [Math.ceil], [Math.round] and [~~] return integers ([Z]).  NaN and the
    infinities have no counterpart in [Q]; the theorems that use a quotient
    state that its divisor is positive.  Module [Binary64] transcribes the
    longitude normalisation over the kernel's binary64 floats, where the
    rounding of each operation is the one the program performs.

    Effects.  Canvas and renderer calls are recorded as a trace of
    [Event]s next to the updated series; the calls are recorded, not
    interpreted, so an exception that the browser raises inside one of
    them is outside the model.  Exceptions of the language itself (a
    typed-array store out of range, a method call on [undefined]) are part
    of it: they are the [Throw] case of a [completion]. *)

From Stdlib Require Import ZArith QArith Qround Lia Lqa String Ascii Floats.
From stdpp Require Import base option list.

Local Open Scope Z_scope.

(** ** The JavaScript layer: values the source relies on *)
Module JS.

(** The exact reading of [number]. *)
Definition number : Type := Q.
Bind Scope Q_scope with number.

(** Exceptions the embedded code can raise. *)
Inductive exn : Type :=
| RangeError
| TypeError.

(** The completion of a call: a value, or a thrown exception. *)
Inductive completion (A : Type) : Type :=
| Normal (a : A)
| Throw (e : exn).
Arguments Normal {A} a.
Arguments Throw {A} e.

(** Sequencing: an exception of the first call skips the rest.  With this
    instance the code reads [x ← call; rest]. *)
#[global] Instance completion_bind : MBind completion :=
  fun A B (k : A -> completion B) (c : completion A) =>
    match c with
    | Normal a => k a
    | Throw e => Throw e
    end.

#[global] Instance completion_ret : MRet completion := @Normal.

(** Highcharts' [pick(a, b)]: the first argument that is neither
    [undefined] nor [null] ([None] stands for both). *)
Definition pick {A : Type} (a : option A) (b : A) : A :=
  match a with
  | Some x => x
  | None => b
  end.

(** Highcharts' [defined(x)]. *)
Definition defined {A : Type} (a : option A) : bool :=
  match a with
  | Some _ => true
  | None => false
  end.

(** [x || 0] on an optional number: [undefined], [null] and [0] give [0]. *)
Definition or_zero (a : option number) : number :=
  match a with
  | Some x => x
  | None => 0%Q
  end.

(** Truncation toward zero, the integer part of a number. *)
Definition trunc (x : number) : Z := Z.quot (Qnum x) (Z.pos (Qden x)).

(** Wrap-around of an integer into the signed 32-bit range. *)
Definition wrap32 (z : Z) : Z := (z + 2 ^ 31) mod 2 ^ 32 - 2 ^ 31.

(** [~~x]: ToInt32 twice, that is truncation followed by 32-bit wrap. *)
Definition toInt32 (x : number) : Z := wrap32 (trunc x).

Definition Math_floor (x : number) : Z := Qfloor x.
Definition Math_ceil (x : number) : Z := Qceiling x.
(** [Math.round] rounds half-way cases toward plus infinity. *)
Definition Math_round (x : number) : Z := Qfloor (x + (1 # 2))%Q.

Definition Qltb (x y : Q) : bool := negb (Qle_bool y x).

(** Conversion of a number stored into a [Uint8ClampedArray]: clamp to
    [0, 255], round to nearest, ties to even. *)
Definition toUint8Clamp (x : number) : Z :=
  if Qle_bool x 0%Q then 0
  else if Qle_bool 255%Q x then 255
  else
    let f := Qfloor x in
    if Qltb (inject_Z f + (1 # 2))%Q x then f + 1
    else if Qltb x (inject_Z f + (1 # 2))%Q then f
    else if Z.even f then f else f + 1.

(** A JavaScript array of numbers; [None] is a hole, read as
    [undefined]. *)
Abbreviation array := (list (option number)).

(** [a[i] = v] on an array: in range it overwrites, past the end the array
    grows and the skipped places are holes. *)
Definition array_assign (a : array) (i : nat) (v : number) : array :=
  if (i <? length a)%nat then <[i := Some v]> a
  else a ++ replicate (i - length a) None ++ [Some v].

(** [a[i]] on an array: [None] for a hole and past the end. *)
Definition array_get (a : array) (i : nat) : option number :=
  mjoin (a !! i).

(** A [Uint8ClampedArray] is the list of its bytes. *)
Abbreviation bytes := (list Z).

(** [new Uint8ClampedArray(n)], zero filled; a negative length throws. *)
Definition Uint8ClampedArray_new (n : Z) : completion bytes :=
  if n <? 0 then Throw RangeError
  else Normal (replicate (Z.to_nat n) 0).

(** [new Uint8ClampedArray(a)] from an array: [undefined] converts to NaN,
    which is stored as [0]. *)
Definition Uint8ClampedArray_from (a : array) : bytes :=
  map (fun e => match e with
                | Some x => toUint8Clamp x
                | None => 0
                end) a.

(** [target.set(source, offset)]: a negative offset, or a source that does
    not fit behind the offset, throws [RangeError]. *)
Definition typedarray_set (target source : bytes) (offset : Z)
  : completion bytes :=
  if (offset <? 0)
     || (Z.of_nat (length target) <? offset + Z.of_nat (length source))
  then Throw RangeError
  else Normal (list_inserts (Z.to_nat offset) source target).

(** [data[i]] on a typed array: [undefined] outside the array. *)
Definition typedarray_get (data : bytes) (i : Z) : option Z :=
  if i <? 0 then None else data !! Z.to_nat i.

(** [out[i] = v] where [v] was read from a typed array: [undefined] is
    stored as [0]; a store outside the array is ignored. *)
Definition typedarray_store (out : bytes) (i : nat) (v : option Z) : bytes :=
  <[i := pick v 0]> out.

(** [s.split(sep)] for a one-character separator. *)
Fixpoint split (sep : ascii) (s : string) : list string :=
  match s with
  | EmptyString => [EmptyString]
  | String c s' =>
      if Ascii.eqb c sep then EmptyString :: split sep s'
      else match split sep s' with
           | [] => [String c EmptyString]
           | h :: t => String c h :: t
           end
  end.

(** *** Facts about the numeric primitives *)



Lemma Qfloor_bounds (x : Q) (lo hi : Z) :
  (inject_Z lo <= x)%Q -> (x < inject_Z hi)%Q -> lo <= Qfloor x < hi.
Proof.
  intros Hlo Hhi. split.
  - rewrite <- (Qfloor_Z lo). now apply Qfloor_resp_le.
  - assert (H : (inject_Z (Qfloor x) < inject_Z hi)%Q).
    { eapply Qle_lt_trans; [apply Qfloor_le | exact Hhi]. }
    now rewrite <- Zlt_Qlt in H.
Qed.


End JS.

(** ** GeoHeatmapSeries: data model *)
Module GeoHeatmapSeries.
Import JS.

(** A point of the series.  [options_lon] and [options_lat] are
    [p.options.lon] and [p.options.lat], [Some] exactly when Highcharts'
    [isNumber] accepts them; [value] is [None] when [p.value] is
    [undefined] or [null]. *)
Record GeoHeatmapPoint : Type := {
  options_lon : option number;
  options_lat : option number;
  value : option number
}.

(** The colour axis, of which the series calls only [toColor]. *)
Record ColorAxis : Type := {
  toColor : number -> GeoHeatmapPoint -> string
}.

Record PositionObject : Type := { x : number; y : number }.

Record LonLat : Type := { lon : number; lat : number }.

Record Bounds : Type := { x1 : number; y1 : number; x2 : number; y2 : number }.

(** [mapView.projection.options]. *)
Record ProjectionOptions : Type := {
  name : string;
  rotation : option (list number)
}.

(** The map view, of which the series calls the two conversions. *)
Record MapView : Type := {
  projectedUnitsToPixels : PositionObject -> option PositionObject;
  pixelsToLonLat : PositionObject -> option LonLat;
  projection_options : ProjectionOptions
}.

(** The local object [dimensions] of [drawPoints]. *)
Record Dimensions : Type := {
  dim_x : number;
  dim_y : number;
  dim_width : number;
  dim_height : number
}.

(** An [ImageData]: RGBA bytes in row-major order. *)
Record ImageData : Type := {
  data : bytes;
  img_width : Z;
  img_height : Z
}.

(** The canvas element: the sizes last assigned and the bitmap that
    [toDataURL] serialises. *)
Record Canvas : Type := {
  width : Z;
  height : Z;
  bitmap : bytes
}.

(** The 2D rendering context of the canvas. *)
Inductive Context : Type := Context2D.

(** The SVG image element showing the canvas. *)
Record SVGElement : Type := {
  attr_x : number;
  attr_y : number;
  attr_width : number;
  attr_height : number;
  href : option Canvas
}.

Record Options : Type := {
  interpolation : bool;
  colsize : option number;
  rowsize : option number;
  interpolationBlur : option number
}.

(** The parts of [series.chart] that [drawPoints] reads; [colorAxis] is
    [chart.colorAxis && chart.colorAxis[0]]. *)
Record Chart : Type := {
  mapView : option MapView;
  colorAxis : option ColorAxis;
  globalAnimation : bool;
  hasRendered : bool
}.

Record Series : Type := {
  chart : Chart;
  options : Options;
  bounds : option Bounds;
  points : list GeoHeatmapPoint;
  canvas : option Canvas;
  context : option Context;
  isDirtyCanvas : bool;
  image : option SVGElement
}.

(** What the browser provides: the number parsers, whether a 2D context
    can be created, and the pixels that [getImageData] returns once an
    image of size [sw] x [sh] was put on the canvas and drawn over itself
    scaled to [dw] x [dh]. *)
Record Env : Type := {
  parseFloat : string -> number;
  parseInt : string -> number;
  getContext2d : option Context;
  scaledImageData : bytes -> Z -> Z -> Z -> Z -> bytes
}.

(** Calls on the canvas, the renderer and the parent class, in program
    order. *)
Inductive Event : Type :=
| SuperDrawPoints
| ClearRect (w h : Z)
| SetCanvasWidth (w : Z)
| SetCanvasHeight (h : Z)
| PutImageData (img : ImageData)
| SetGlobalCompositeOperation (op : string)
| DrawImage (sw sh dw dh : Z)
| GetImageData (w h : Z)
| StopAnimation
| ImageAnimate (start target : Dimensions)
| ImageAttr (d : Dimensions) (url : Canvas)
| RendererImage (url : Canvas) (d : Dimensions).

(** ** GeoHeatmapSeries: the raster of points *)

(** [~~(360 / colsize) + 1] and [~~(180 / rowsize) + 1]. *)
Definition canvasWidth (colsize : number) : Z :=
  toInt32 (360 / colsize)%Q + 1.

Definition canvasHeight (rowsize : number) : Z :=
  toInt32 (180 / rowsize)%Q + 1.

(** The part of the colour string between the first "(" and the first
    ")": [s.split(')')[0].split('(')[1]]. *)
Definition colorBody (s : string) : option string :=
  split "("%char (hd EmptyString (split ")"%char s)) !! 1%nat.

(** The arrow function [colorFromPoint]; without a "(" the second
    [split] is called on [undefined]. *)
Definition colorFromPoint (env : Env) (axis : ColorAxis)
    (p : GeoHeatmapPoint) : completion array :=
  match colorBody (toColor axis (or_zero (value p)) p) with
  | None => Throw TypeError
  | Some body =>
      let rgba : array :=
        map (fun s => Some (pick (Some (parseFloat env s)) (parseInt env s)))
            (split ","%char body) in
      let rgba := array_assign rgba 3 (pick (array_get rgba 3) 1 * 255)%Q in
      let rgba := if defined (value p) then rgba
                  else array_assign rgba 3 0%Q in
      Normal rgba
  end.

(** The arrow function [scaledPointPos], closed over the canvas sizes and
    the cell sizes. *)
Definition scaledPointPos (colsize rowsize : number) (lon lat : number) : Z :=
  Math_ceil
    (inject_Z (canvasWidth colsize)
     * (inject_Z (canvasHeight rowsize) - 1 - (lat + 90) / rowsize)
     + (lon + 180) / colsize)%Q.

(** One turn of the loop over [points]. *)
Definition fillPoint (env : Env) (axis : ColorAxis)
    (colsize rowsize : number) (pixelData : bytes) (p : GeoHeatmapPoint)
  : completion bytes :=
  rgba ← colorFromPoint env axis p;
  let sourceArr := Uint8ClampedArray_from rgba in
  match options_lon p, options_lat p with
  | Some lon, Some lat =>
      typedarray_set pixelData sourceArr
        (scaledPointPos colsize rowsize lon lat * 4)
  | _, _ => Normal pixelData
  end.

(** The loop [for (let i = 0; i < points.length; i++)]. *)
Fixpoint fillPixels (env : Env) (axis : ColorAxis)
    (colsize rowsize : number) (ps : list GeoHeatmapPoint)
    (pixelData : bytes) : completion bytes :=
  match ps with
  | [] => Normal pixelData
  | p :: ps' =>
      pixelData' ← fillPoint env axis colsize rowsize pixelData p;
      fillPixels env axis colsize rowsize ps' pixelData'
  end.

(** ** GeoHeatmapSeries: sampling through the projection *)

(** The statement under the comment "Normalize lon values". *)
Definition normalizeLon (lon : number) : number :=
  (lon - inject_Z (Math_floor ((lon + 180) / 360)) * 360)%Q.

(** [pick(mapView.projection.options.rotation?.[0], 0)]. *)
Definition lambda (mv : MapView) : number :=
  pick (rotation (projection_options mv) ≫= head) 0%Q.

(** The longitude after the conditional normalisation. *)
Definition projectedLon (mv : MapView) (c : LonLat) : number :=
  if Qltb (-180 - lambda mv)%Q (lon c) && Qltb (lon c) (180 - lambda mv)%Q
  then normalizeLon (lon c)
  else lon c.

(** [cvs2PixelX], [cvs2PixelY] and [redPos], with [scale = 1]; [w] and
    [h] are [canvas.width] and [canvas.height] of the upscaled canvas. *)
Definition cvs2PixelX (w : Z) (lon : number) : number :=
  (lon * inject_Z w / (360 * 1) + inject_Z w / 2)%Q.

Definition cvs2PixelY (h : Z) (lat : number) : number :=
  (-1 * lat * inject_Z h / (180 * 1) + inject_Z h / 2)%Q.

Definition redPos (w : Z) (px py : number) : Z :=
  Math_floor py * w * 4 + Math_round px * 4.

(** The test guarding the four stores. *)
Definition insideCanvas (w h : Z) (px py : number) : bool :=
  Qle_bool 0 px && Qle_bool px (inject_Z w)
  && Qle_bool 0 py && Qle_bool py (inject_Z h).

(** The four stores [projectedPixelData[i + k] = cartesianImageData.data[redPos + k]]. *)
Definition copyPixel (cartesian : bytes) (pos : Z) (out : bytes) (i : nat)
  : bytes :=
  let out := typedarray_store out i (typedarray_get cartesian pos) in
  let out := typedarray_store out (i + 1) (typedarray_get cartesian (pos + 1)) in
  let out := typedarray_store out (i + 2) (typedarray_get cartesian (pos + 2)) in
  typedarray_store out (i + 3) (typedarray_get cartesian (pos + 3)).

(** One turn of the loop over the pixels of the map plane; the state is
    the row counter [y] and the output array, [n] is [i / 4]. *)
Definition projectPixel (mv : MapView) (d : Dimensions) (w h : Z)
    (cartesian : bytes) (projectedWidth : Z) (st : Z * bytes) (n : nat)
  : Z * bytes :=
  let '(y, out) := st in
  let i := (4 * n)%nat in
  let x := Z.rem (Z.of_nat n) projectedWidth in
  let y := if x =? 0 then y + 1 else y in
  match pixelsToLonLat mv {| x := (dim_x d + inject_Z x)%Q;
                             y := (dim_y d + inject_Z y)%Q |} with
  | Some c =>
      let px := cvs2PixelX w (projectedLon mv c) in
      let py := cvs2PixelY h (lat c) in
      if insideCanvas w h px py
      then (y, copyPixel cartesian (redPos w px py) out i)
      else (y, out)
  | None => (y, out)
  end.

(** The loop [for (let i = 0; i < projectedPixelData.length; i += 4)],
    started with [y = -1]. *)
Definition projectPixels (mv : MapView) (d : Dimensions) (w h : Z)
    (cartesian : bytes) (projectedWidth : Z) (projectedPixelData : bytes)
  : bytes :=
  snd (fold_left (projectPixel mv d w h cartesian projectedWidth)
         (seq 0 ((length projectedPixelData + 3) / 4))
         (-1, projectedPixelData)).

(** ** GeoHeatmapSeries: [getContext] and [drawPoints] *)

(** The canvas that [doc.createElement('canvas')] returns. *)
Definition createCanvas : Canvas :=
  {| width := 300; height := 150; bitmap := [] |}.

Definition set_canvas_context (s : Series) (cv : option Canvas)
    (ctx : option Context) : Series :=
  {| chart := chart s; options := options s; bounds := bounds s;
     points := points s; canvas := cv; context := ctx;
     isDirtyCanvas := isDirtyCanvas s; image := image s |}.

Definition set_image (s : Series) (img : option SVGElement)
    (dirty : bool) : Series :=
  {| chart := chart s; options := options s; bounds := bounds s;
     points := points s; canvas := canvas s; context := context s;
     isDirtyCanvas := dirty; image := img |}.

(** The method [getContext]: the updated series, the returned context and
    the calls made. *)
Definition getContext (env : Env) (s : Series)
  : Series * option Context * list Event :=
  match canvas s, context s with
  | Some cv, Some ctx => (s, Some ctx, [ClearRect (width cv) (height cv)])
  | _, _ =>
      let s' := set_canvas_context s (Some createCanvas) (getContext2d env) in
      (s', context s', [])
  end.

(** The block guarded by [series.isDirtyCanvas || name === 'Orthographic']:
    the raster of points, its upscaled copy and the projected image.  It
    returns the canvas as it is left and the calls made on it.  The
    sampling loop reads [canvas.width] and [canvas.height] after they were
    set to the upscaled sizes. *)
Definition recomputeCanvas (env : Env) (mv : MapView) (axis : ColorAxis)
    (s : Series) (d : Dimensions) : completion (Canvas * list Event) :=
  let colsize := pick (colsize (options s)) 1%Q in
  let rowsize := pick (rowsize (options s)) 1%Q in
  let canvasWidth := canvasWidth colsize in
  let canvasHeight := canvasHeight rowsize in
  let canvasArea := canvasWidth * canvasHeight in
  pixelData0 ← Uint8ClampedArray_new (canvasArea * 4);
  pixelData ← fillPixels env axis colsize rowsize (points s) pixelData0;
  let blur := pick (interpolationBlur (options s)) 1%Q in
  let upscaledWidth := toInt32 (dim_width d * blur)%Q in
  let upscaledHeight :=
    toInt32 ((blur * dim_width d) / inject_Z canvasWidth)%Q * canvasHeight in
  let projectedWidth := toInt32 (dim_width d) in
  let projectedHeight := toInt32 (dim_height d) in
  let img := {| data := pixelData; img_width := canvasWidth;
                img_height := canvasHeight |} in
  projectedPixelData0 ←
    Uint8ClampedArray_new (projectedWidth * projectedHeight * 4);
  let cartesianImageData :=
    scaledImageData env pixelData canvasWidth canvasHeight
      upscaledWidth upscaledHeight in
  let projectedPixelData :=
    projectPixels mv d upscaledWidth upscaledHeight cartesianImageData
      projectedWidth projectedPixelData0 in
  let projectedImg := {| data := projectedPixelData;
                         img_width := projectedWidth;
                         img_height := projectedHeight |} in
  Normal ({| width := projectedWidth; height := projectedHeight;
             bitmap := projectedPixelData |},
          [ SetCanvasWidth canvasWidth; SetCanvasHeight canvasHeight;
            SetCanvasWidth upscaledWidth; SetCanvasHeight upscaledHeight;
            PutImageData img;
            SetGlobalCompositeOperation "copy";
            DrawImage canvasWidth canvasHeight upscaledWidth upscaledHeight;
            GetImageData upscaledWidth upscaledHeight;
            SetGlobalCompositeOperation "copy";
            SetCanvasWidth projectedWidth; SetCanvasHeight projectedHeight;
            PutImageData projectedImg ]).

Definition dimensionsOf (i : SVGElement) : Dimensions :=
  {| dim_x := attr_x i; dim_y := attr_y i;
     dim_width := attr_width i; dim_height := attr_height i |}.

(** The statements after the raster: animate or update the image element,
    or create it. *)
Definition updateImage (s : Series) (d : Dimensions) (cv : Canvas)
  : Series * list Event :=
  match image s with
  | Some i =>
      if globalAnimation (chart s) && hasRendered (chart s)
      then (s, [ImageAnimate (dimensionsOf i) d])
      else
        (set_image s
           (Some {| attr_x := dim_x d; attr_y := dim_y d;
                    attr_width := dim_width d; attr_height := dim_height d;
                    href := Some cv |})
           (isDirtyCanvas s),
         [StopAnimation; ImageAttr d cv])
  | None =>
      (set_image s
         (Some {| attr_x := dim_x d; attr_y := dim_y d;
                  attr_width := dim_width d; attr_height := dim_height d;
                  href := Some cv |})
         false,
       [RendererImage cv d])
  end.

(** The method [drawPoints]. *)
Definition drawPoints (env : Env) (s : Series)
  : completion (Series * list Event) :=
  match interpolation (options s), mapView (chart s), bounds s with
  | true, Some mv, Some b =>
      let topLeft := projectedUnitsToPixels mv {| x := x1 b; y := y2 b |} in
      let bottomRight := projectedUnitsToPixels mv {| x := x2 b; y := y1 b |} in
      match topLeft, bottomRight with
      | Some topLeft, Some bottomRight =>
          let dimensions :=
            {| dim_x := x topLeft; dim_y := y topLeft;
               dim_width := (x bottomRight - x topLeft)%Q;
               dim_height := (y bottomRight - y topLeft)%Q |} in
          let colorAxis := colorAxis (chart s) in
          let '(s1, ctx, tr1) :=
            match context s with
            | Some c => (s, Some c, [])
            | None => getContext env s
            end in
          match canvas s1, ctx, colorAxis with
          | Some cv, Some _, Some axis =>
              '(cv', tr2) ←
                (if isDirtyCanvas s1
                    || String.eqb (name (projection_options mv)) "Orthographic"
                 then recomputeCanvas env mv axis s1 dimensions
                 else Normal (cv, []));
              let s2 := set_canvas_context s1 (Some cv') (context s1) in
              let '(s3, tr3) := updateImage s2 dimensions cv' in
              Normal (s3, tr1 ++ tr2 ++ tr3)
          | _, _, _ => Normal (s1, tr1)
          end
      | _, _ => Normal (s, [])
      end
  | _, _, _ => Normal (s, [SuperDrawPoints])
  end.

(** ** Properties of the raster of points *)








(** The pixel a point is stored at, when its [lon] and [lat] are
    numbers. *)
Definition pixelOf (colsize rowsize : number) (p : GeoHeatmapPoint)
  : option Z :=
  match options_lon p, options_lat p with
  | Some lon, Some lat => Some (scaledPointPos colsize rowsize lon lat)
  | _, _ => None
  end.


Lemma fillPoint_skip env axis c r buf p rgba :
  colorFromPoint env axis p = Normal rgba ->
  pixelOf c r p = None ->
  fillPoint env axis c r buf p = Normal buf.
Proof.
  intros Hc Hp. unfold fillPoint, pixelOf in *. rewrite Hc. simpl.
  destruct (options_lon p), (options_lat p); congruence.
Qed.






(** ** Properties of [colorFromPoint] *)


Lemma array_get_parsed (f g : string -> number) (l : list string) (i : nat) :
  array_get (map (fun s => Some (pick (Some (f s)) (g s))) l) i = f <$> l !! i.
Proof.
  unfold array_get. rewrite list_lookup_fmap.
  now destruct (l !! i).
Qed.


(** ** A concrete chart, used to run the definitions *)

Definition digit (c : ascii) : option Z :=
  let n := Z.of_nat (nat_of_ascii c) in
  if (48 <=? n) && (n <=? 57) then Some (n - 48) else None.

(** A parser of unsigned decimal numerals such as "255" and "0.5". *)
Fixpoint parseDecimal (s : string) (num : Z) (den : positive) (frac : bool)
  : number :=
  match s with
  | EmptyString => num # den
  | String c s' =>
      if Ascii.eqb c "."%char then parseDecimal s' num den true
      else match digit c with
           | Some d => parseDecimal s' (10 * num + d)
                         (if frac then 10 * den else den)%positive frac
           | None => num # den
           end
  end.

(** Scaling by nearest neighbour, one way a browser may resample. *)
Definition nearestNeighbour (pixels : bytes) (sw sh dw dh : Z) : bytes :=
  flat_map (fun row =>
    flat_map (fun col =>
      let src := ((row * sh / dh) * sw + col * sw / dw) * 4 in
      map (fun k => pick (typedarray_get pixels (src + k)) 0) (seqZ 0 4))
      (seqZ 0 dw))
    (seqZ 0 dh).

Definition sampleEnv : Env :=
  {| parseFloat := fun s => parseDecimal s 0 1 false;
     parseInt := fun s => inject_Z (Qfloor (parseDecimal s 0 1 false));
     getContext2d := Some Context2D;
     scaledImageData := nearestNeighbour |}.

(** An axis with two colours: half-transparent blue below 50, opaque red
    from 50 on. *)
Definition sampleAxis : ColorAxis :=
  {| toColor := fun v _ =>
       if Qltb v 50 then "rgba(0,0,255,0.5)"%string
       else "rgb(255,0,0)"%string |}.

Definition samplePoint (lon lat : number) (v : option number)
  : GeoHeatmapPoint :=
  {| options_lon := Some lon; options_lat := Some lat; value := v |}.


Example colorFromPoint_blue :
  (rgba ← colorFromPoint sampleEnv sampleAxis (samplePoint 0 0 (Some 10%Q));
   Normal (Uint8ClampedArray_from rgba))
  = Normal [0; 0; 255; 128].
Proof. reflexivity. Qed.

Example colorFromPoint_red :
  (rgba ← colorFromPoint sampleEnv sampleAxis (samplePoint 0 0 (Some 60%Q));
   Normal (Uint8ClampedArray_from rgba))
  = Normal [255; 0; 0; 255].
Proof. reflexivity. Qed.

Example colorFromPoint_hex :
  colorFromPoint sampleEnv {| toColor := fun _ _ => "#ff0000"%string |}
    (samplePoint 0 0 (Some 60%Q))
  = Throw TypeError.
Proof. reflexivity. Qed.

(** Points for a raster of 5 x 3 cells of 90 degrees; two of them fall on
    one cell and one has no longitude. *)
Definition samplePoints : list GeoHeatmapPoint :=
  [ samplePoint 0 0 (Some 10%Q);
    samplePoint 90 (-90) (Some 60%Q);
    {| options_lon := None; options_lat := Some 0%Q; value := Some 1%Q |};
    samplePoint 0 0 (Some 70%Q);
    samplePoint (-90) 90 (Some 20%Q) ].


Example samplePoints_raster :
  (pixelData0 ← Uint8ClampedArray_new (canvasWidth 90 * canvasHeight 90 * 4);
   fillPixels sampleEnv sampleAxis 90 90 samplePoints pixelData0)
  = Normal [ 0;0;0;0;  0;0;255;128;  0;0;0;0; 0;0;0;0;  0;0;0;0;
             0;0;0;0;  0;0;0;0;  255;0;0;255; 0;0;0;0;  0;0;0;0;
             0;0;0;0;  0;0;0;0;  0;0;0;0;    255;0;0;255; 0;0;0;0 ].
Proof. reflexivity. Qed.


(** ** Properties of the sampling loop *)

Lemma Qle_bool_true (a b : Q) : Qle_bool a b = true <-> (a <= b)%Q.
Proof. apply Qle_bool_iff. Qed.

Lemma insideCanvas_spec (w h : Z) (px py : number) :
  insideCanvas w h px py = true
  <-> (0 <= px)%Q /\ (px <= inject_Z w)%Q
      /\ (0 <= py)%Q /\ (py <= inject_Z h)%Q.
Proof.
  unfold insideCanvas. rewrite !andb_true_iff, !Qle_bool_true. tauto.
Qed.

(** The row counter: bumping [y] whenever [x] is [0] keeps it equal to
    the quotient of the pixel number by the width. *)
Lemma row_counter (pw m : Z) :
  0 < pw -> 0 <= m ->
  (if Z.rem m pw =? 0 then (m - 1) / pw + 1 else (m - 1) / pw) = m / pw.
Proof.
  intros Hpw Hm. rewrite Z.rem_mod_nonneg by lia.
  pose proof (Z.div_mod m pw ltac:(lia)) as Hdm.
  pose proof (Z.mod_pos_bound m pw Hpw) as Hb.
  destruct (m mod pw =? 0) eqn:E.
  - apply Z.eqb_eq in E.
    assert (H1 : (m - 1) / pw = m / pw - 1).
    { symmetry. apply (Z.div_unique (m - 1) pw (m / pw - 1) (pw - 1)); lia. }
    lia.
  - apply Z.eqb_neq in E.
    symmetry. apply (Z.div_unique (m - 1) pw (m / pw) (m mod pw - 1)); lia.
Qed.

Lemma copyPixel_length cartesian pos out i :
  length (copyPixel cartesian pos out i) = length out.
Proof. unfold copyPixel, typedarray_store. now rewrite !length_insert. Qed.

Lemma copyPixel_other cartesian pos out (i j : nat) :
  (j < i \/ i + 4 <= j)%nat ->
  copyPixel cartesian pos out i !! j = out !! j.
Proof.
  intros H. unfold copyPixel, typedarray_store.
  rewrite !list_lookup_insert_ne by lia. reflexivity.
Qed.

Lemma copyPixel_channel cartesian pos out (i k : nat) :
  (i + 4 <= length out)%nat -> (k < 4)%nat ->
  copyPixel cartesian pos out i !! (i + k)%nat
  = Some (pick (typedarray_get cartesian (pos + Z.of_nat k)) 0).
Proof.
  intros Hlen Hk. unfold copyPixel, typedarray_store.
  destruct k as [| [| [| [| k]]]]; [| | | | lia].
  - rewrite !list_lookup_insert_ne by lia.
    rewrite Nat.add_0_r, Z.add_0_r. apply list_lookup_insert_eq. lia.
  - rewrite !list_lookup_insert_ne by lia.
    apply list_lookup_insert_eq. rewrite !length_insert. lia.
  - rewrite !list_lookup_insert_ne by lia.
    apply list_lookup_insert_eq. rewrite !length_insert. lia.
  - apply list_lookup_insert_eq. rewrite !length_insert. lia.
Qed.

(** The channel [k] that the loop leaves in pixel [n] of an output that
    starts all zero. *)
Definition sampled (mv : MapView) (d : Dimensions) (w h : Z)
    (cartesian : bytes) (projectedWidth : Z) (n k : nat) : Z :=
  match pixelsToLonLat mv
          {| x := (dim_x d + inject_Z (Z.of_nat n mod projectedWidth))%Q;
             y := (dim_y d + inject_Z (Z.of_nat n / projectedWidth))%Q |} with
  | Some c =>
      let px := cvs2PixelX w (projectedLon mv c) in
      let py := cvs2PixelY h (lat c) in
      if insideCanvas w h px py
      then pick (typedarray_get cartesian (redPos w px py + Z.of_nat k)) 0
      else 0
  | None => 0
  end.

Lemma projectPixel_step mv d w h cartesian pw (out : bytes) (m : nat) :
  0 < pw -> (4 * m + 4 <= length out)%nat ->
  (forall k : nat, (k < 4)%nat -> out !! (4 * m + k)%nat = Some 0) ->
  exists out',
    projectPixel mv d w h cartesian pw ((Z.of_nat m - 1) / pw, out) m
    = (Z.of_nat m / pw, out')
    /\ length out' = length out
    /\ (forall j : nat, (j < 4 * m \/ 4 * m + 4 <= j)%nat -> out' !! j = out !! j)
    /\ (forall k : nat, (k < 4)%nat ->
          out' !! (4 * m + k)%nat = Some (sampled mv d w h cartesian pw m k)).
Proof.
  intros Hpw Hlen Hzero. unfold projectPixel, sampled.
  rewrite (row_counter pw (Z.of_nat m) Hpw ltac:(lia)).
  rewrite Z.rem_mod_nonneg by lia.
  destruct (pixelsToLonLat mv _) as [c |].
  - destruct (insideCanvas w h _ _).
    + eexists. split; [reflexivity |]. split; [apply copyPixel_length |].
      split.
      * intros j Hj. now apply copyPixel_other.
      * intros k Hk. now apply copyPixel_channel.
    + exists out. repeat split; auto.
  - exists out. repeat split; auto.
Qed.

Lemma projectPixels_prefix mv d w h cartesian pw (out0 : bytes) (m : nat) :
  0 < pw -> (4 * m <= length out0)%nat ->
  (forall j : nat, (j < length out0)%nat -> out0 !! j = Some 0) ->
  exists out,
    fold_left (projectPixel mv d w h cartesian pw) (seq 0 m) (-1, out0)
    = ((Z.of_nat m - 1) / pw, out)
    /\ length out = length out0
    /\ (forall j : nat, (4 * m <= j)%nat -> out !! j = out0 !! j)
    /\ (forall n k : nat, (n < m)%nat -> (k < 4)%nat ->
          out !! (4 * n + k)%nat = Some (sampled mv d w h cartesian pw n k)).
Proof.
  intros Hpw. induction m as [| m IH]; intros Hlen Hzero.
  - exists out0. simpl. split.
    + f_equal. apply (Z.div_unique (-1) pw (-1) (pw - 1)); lia.
    + repeat split; auto. intros n k Hn. lia.
  - destruct IH as (out & Hrun & Hl & Hrest & Hdone); [lia | exact Hzero |].
    destruct (projectPixel_step mv d w h cartesian pw out m Hpw)
      as (out' & Hstep & Hl' & Hother & Hnew).
    { lia. }
    { intros k Hk. rewrite Hrest by lia. apply Hzero. lia. }
    exists out'. rewrite seq_S, fold_left_app, Hrun. cbn [fold_left].
    change (0 + m)%nat with m. rewrite Hstep. split.
    + f_equal. f_equal. lia.
    + split; [congruence |]. split.
      * intros j Hj. rewrite Hother by lia. apply Hrest. lia.
      * intros n k Hn Hk. destruct (decide (n = m)) as [-> | Hne].
        -- now apply Hnew.
        -- rewrite Hother by lia. apply Hdone; [lia | exact Hk].
Qed.

Lemma projectPixels_sampled mv d w h cartesian (pw ph : Z) (n k : nat) :
  0 < pw -> Z.of_nat n < pw * ph -> (k < 4)%nat ->
  projectPixels mv d w h cartesian pw (replicate (Z.to_nat (pw * ph * 4)) 0)
    !! (4 * n + k)%nat
  = Some (sampled mv d w h cartesian pw n k).
Proof.
  intros Hpw Hn Hk. unfold projectPixels.
  set (m := Z.to_nat (pw * ph)).
  assert (Hm : Z.to_nat (pw * ph * 4) = (4 * m)%nat) by (unfold m; lia).
  rewrite Hm, length_replicate.
  replace ((4 * m + 3) / 4)%nat with m
    by (apply (Nat.div_unique (4 * m + 3) 4 m 3); lia).
  destruct (projectPixels_prefix mv d w h cartesian pw (replicate (4 * m) 0) m)
    as (out & Hrun & _ & _ & Hdone).
  - exact Hpw.
  - rewrite length_replicate. lia.
  - intros j Hj. rewrite length_replicate in Hj.
    now apply lookup_replicate_2.
  - rewrite Hrun. simpl. apply Hdone; [unfold m; lia | exact Hk].
Qed.


(** A view of 4 x 2 pixels of 90 degrees: the top row of pixels lies
    north of the pole and the last column has no inverse projection. *)
Definition sampleMapView : MapView :=
  {| projectedUnitsToPixels := fun p =>
       Some {| x := ((x p + 180) / 90)%Q; y := ((135 - y p) / 90)%Q |};
     pixelsToLonLat := fun p =>
       if Qltb (x p) 3 then
         Some {| lon := (x p * 90 - 180)%Q; lat := (135 - y p * 90)%Q |}
       else None;
     projection_options := {| name := "EqualEarth"; rotation := None |} |}.

Definition sampleDimensions : Dimensions :=
  {| dim_x := 0; dim_y := 0; dim_width := 4; dim_height := 2 |}.

(** A 4 x 2 interpolation buffer whose byte at index [i] is [i + 1]. *)
Definition sampleCartesian : bytes := seqZ 1 32.


Example sample_projection :
  projectPixels sampleMapView sampleDimensions 4 2 sampleCartesian 4
    (replicate (Z.to_nat (4 * 2 * 4)) 0)
  = [ 0;0;0;0;  0;0;0;0;  0;0;0;0;    0;0;0;0;
      1;2;3;4;  5;6;7;8;  9;10;11;12; 0;0;0;0 ].
Proof. reflexivity. Qed.

(** ** Properties of [drawPoints] *)












(** C3, as amended.  With interpolation enabled: when the map view and the
    bounds exist but no 2D context can be obtained, [drawPoints] returns
    normally without any call (it only creates the canvas element); when
    the bounds are undefined it hands over to the parent's [drawPoints]. *)
Theorem drawPoints_skips_or_delegates env s :
  interpolation (options s) = true ->
  (forall mv b topLeft bottomRight,
     mapView (chart s) = Some mv ->
     bounds s = Some b ->
     projectedUnitsToPixels mv {| x := x1 b; y := y2 b |} = Some topLeft ->
     projectedUnitsToPixels mv {| x := x2 b; y := y1 b |} = Some bottomRight ->
     context s = None ->
     getContext2d env = None ->
     drawPoints env s
     = Normal (set_canvas_context s (Some createCanvas) None, []))
  /\ (bounds s = None -> drawPoints env s = Normal (s, [SuperDrawPoints])).
Proof.
  intros Hi. split.
  - intros mv b topLeft bottomRight Hmv Hb Htl Hbr Hctx Hget.
    unfold drawPoints, getContext.
    rewrite Hi, Hmv, Hb, Htl, Hbr, Hctx, Hget.
    destruct (canvas s); reflexivity.
  - intros Hb. unfold drawPoints. rewrite Hi, Hb.
    destruct (mapView (chart s)); reflexivity.
Qed.

(** ** A concrete series *)

Definition sampleOptions : Options :=
  {| interpolation := true; colsize := Some 90%Q; rowsize := Some 90%Q;
     interpolationBlur := Some 2%Q |}.

Definition sampleChart : Chart :=
  {| mapView := Some sampleMapView; colorAxis := Some sampleAxis;
     globalAnimation := false; hasRendered := false |}.

Definition sampleBounds : Bounds :=
  {| x1 := -180; y1 := -45; x2 := 180; y2 := 135 |}.

(** A series before its first rendering. *)
Definition sampleSeries : Series :=
  {| chart := sampleChart; options := sampleOptions;
     bounds := Some sampleBounds; points := samplePoints;
     canvas := None; context := None; isDirtyCanvas := true;
     image := None |}.

Definition with_bounds (s : Series) (b : option Bounds) : Series :=
  {| chart := chart s; options := options s; bounds := b;
     points := points s; canvas := canvas s; context := context s;
     isDirtyCanvas := isDirtyCanvas s; image := image s |}.





Example sampleSeries_image :
  (match drawPoints sampleEnv sampleSeries with
   | Normal (s', _) => bitmap <$> canvas s'
   | Throw _ => None
   end)
  = Some [ 0;0;0;0;  0;0;0;0;      0;0;0;0;  0;0;0;0;
           0;0;0;0;  0;0;255;128;  0;0;0;0;  0;0;0;0 ].
Proof. reflexivity. Qed.





Definition noContextEnv : Env :=
  {| parseFloat := parseFloat sampleEnv; parseInt := parseInt sampleEnv;
     getContext2d := None; scaledImageData := nearestNeighbour |}.

Lemma drawPoints_skips_or_delegates_witness :
  drawPoints noContextEnv sampleSeries
  = Normal (set_canvas_context sampleSeries (Some createCanvas) None, [])
  /\ drawPoints noContextEnv (with_bounds sampleSeries None)
     = Normal (with_bounds sampleSeries None, [SuperDrawPoints]).
Proof.
  split.
  - apply (proj1 (drawPoints_skips_or_delegates noContextEnv sampleSeries
                    eq_refl) sampleMapView sampleBounds
             {| x := ((-180 + 180) / 90)%Q; y := ((135 - 135) / 90)%Q |}
             {| x := ((180 + 180) / 90)%Q; y := ((135 - -45) / 90)%Q |});
      reflexivity.
  - apply (proj2 (drawPoints_skips_or_delegates noContextEnv
                    (with_bounds sampleSeries None) eq_refl)).
    reflexivity.
Defined.

(** C3 as stated fails for undefined bounds: interpolation is enabled,
    the bounds are undefined, and the parent's [drawPoints] is called. *)
Lemma drawPoints_undefined_bounds_counterexample :
  interpolation (options (with_bounds sampleSeries None)) = true
  /\ bounds (with_bounds sampleSeries None) = None
  /\ drawPoints sampleEnv (with_bounds sampleSeries None)
     = Normal (with_bounds sampleSeries None, [SuperDrawPoints]).
Proof. repeat split; reflexivity. Qed.

(** ** The longitude normalisation in exact arithmetic *)





Example normalizeLon_190 : normalizeLon 190 = (-170)%Q.
Proof. reflexivity. Qed.

End GeoHeatmapSeries.

(** ** The longitude normalisation on binary64 numbers

    The same statement of the source, with every operation rounded as the
    program rounds it. *)
Module Binary64.

Local Open Scope float_scope.

(** A non-negative integer below 2^53 as a float (the conversion is
    exact). *)
Definition of_Z (z : Z) : float := PrimFloat.of_uint63 (Uint63.of_Z z).

(** [Math.floor]: zeros, infinities, NaN and floats without fractional
    bits are returned as they are. *)
Definition Math_floor (x : float) : float :=
  match Prim2SF x with
  | S754_finite s m e =>
      if (0 <=? e)%Z then x
      else
        let q := Z.shiftr (Z.pos m) (- e) in
        let exact := (Z.shiftl q (- e) =? Z.pos m)%Z in
        if s then (if exact then - of_Z q else - of_Z (q + 1))
        else of_Z q
  | _ => x
  end.

Definition normalizeLon (lon : float) : float :=
  lon - Math_floor ((lon + 180) / 360) * 360.

Example Math_floor_samples :
  (Math_floor 2.5 =? 2) = true /\ (Math_floor (-2.5) =? -3) = true
  /\ (Math_floor (-0.25) =? -1) = true /\ (Math_floor 7 =? 7) = true
  /\ (normalizeLon 190 =? -170) = true
  /\ (normalizeLon (-45.5) =? -45.5) = true.
Proof. vm_compute. repeat split; reflexivity. Qed.

Definition Math_ceil (x : float) : float := - Math_floor (- x).

(** [scaledPointPos] for the default raster of 361 x 181 cells of one
    degree. *)
Definition scaledPointPos (lon lat : float) : float :=
  Math_ceil (361 * (181 - 1 - (lat + 90) / 1) + (lon + 180) / 1).

(** The corners of the globe and points next to them, in binary64.  For
    the largest float below 90 the sum [lat + 90] rounds to 180 and the
    index is 0, where exact arithmetic gives 1; both lie in the raster. *)
Example scaledPointPos_corners :
  (scaledPointPos (-180) 90 =? 0) = true
  /\ (scaledPointPos 180 90 =? 360) = true
  /\ (scaledPointPos (-180) (-90) =? 64980) = true
  /\ (scaledPointPos 180 (-90) =? 65340) = true
  /\ (scaledPointPos 6.5 (-45) =? 48922) = true
  /\ (scaledPointPos (next_down 180) (-90) =? 65340) = true
  /\ (scaledPointPos (-180) (next_down 90) =? 0) = true.
Proof. vm_compute. repeat split; reflexivity. Qed.



End Binary64.

(** ** The dashboard edit mode *)
Module EditMode.

(** [EditGlobals.prefix] and [EditGlobals.classNames.editModeEnabled]. *)
Definition PREFIX : string := "highcharts-dashboard-edit-".

Definition editModeEnabled : string := PREFIX ++ "enabled".

(** The parts of a DOM element that the controller reads or writes:
    the offsets and [style.color]. *)
Record HTMLDOMElement : Type := {
  offsetTop : Z;
  offsetHeight : Z;
  offsetLeft : Z;
  offsetWidth : Z;
  color : string
}.

(** Highcharts' [css(el, { color: c })]. *)
Definition css (el : HTMLDOMElement) (c : string) : HTMLDOMElement :=
  {| offsetTop := offsetTop el; offsetHeight := offsetHeight el;
     offsetLeft := offsetLeft el; offsetWidth := offsetWidth el;
     color := c |}.

(** [classList.add] and [classList.remove] of a DOM token list. *)
Definition classList_add (token : string) (l : list string) : list string :=
  if existsb (String.eqb token) l then l else l ++ [token].

Definition classList_remove (token : string) (l : list string)
  : list string :=
  List.filter (fun t => negb (String.eqb token t)) l.

(** Modelled from the spec: the toolbar classes (CellToolbar, RowToolbar,
    OptionsToolbar) are not part of the sources.  A toolbar is shown or
    hidden, and [hide()] hides it. *)
Record EditToolbar : Type := { toolbar_isVisible : bool }.

Definition hide (t : EditToolbar) : EditToolbar :=
  {| toolbar_isVisible := false |}.

(** The style given to a new context menu, lengths in pixels. *)
Record MenuStyle : Type := {
  style_width : Z;
  style_top : Z;
  style_left : Z
}.

(** Modelled from the spec: the class EditContextMenu is not part of the
    sources.  A menu has the flag [isVisible], and [setVisible(v)] sets
    it to [v]. *)
Record EditContextMenu : Type := {
  isVisible : bool;
  style : MenuStyle
}.

Definition setVisible (v : bool) (m : EditContextMenu) : EditContextMenu :=
  {| isVisible := v; style := style m |}.

(** A resizer is made by [new Resizer(layout)] or by [Resizer.fromJSON]. *)
Inductive Resizer : Type :=
| Resizer_new
| Resizer_fromJSON (json : string).

Record Layout : Type := { resizer : option Resizer }.

(** [dashboard.options.gui.layoutOptions]. *)
Record LayoutOptions : Type := {
  resize : bool;
  resizerJSON : option string
}.

Record Dashboard : Type := {
  layouts : list Layout;
  container_classList : list string;
  gui : option LayoutOptions
}.

Record EditMode : Type := {
  active : bool;
  dashboard : Dashboard;
  contextButtonElement : option HTMLDOMElement;
  contextMenu : option EditContextMenu;
  cellToolbar : option EditToolbar;
  rowToolbar : option EditToolbar;
  optionsToolbar : option EditToolbar
}.

(** The constructors of the classes that are not part of the sources. *)
Record Classes : Type := {
  CellEditToolbar_new : EditMode -> EditToolbar;
  RowEditToolbar_new : EditMode -> EditToolbar;
  OptionsToolbar_new : EditMode -> EditToolbar;
  EditContextMenu_new : EditMode -> MenuStyle -> EditContextMenu
}.

Definition set_active (em : EditMode) (a : bool) : EditMode :=
  {| active := a; dashboard := dashboard em;
     contextButtonElement := contextButtonElement em;
     contextMenu := contextMenu em; cellToolbar := cellToolbar em;
     rowToolbar := rowToolbar em; optionsToolbar := optionsToolbar em |}.

Definition set_dashboard (em : EditMode) (d : Dashboard) : EditMode :=
  {| active := active em; dashboard := d;
     contextButtonElement := contextButtonElement em;
     contextMenu := contextMenu em; cellToolbar := cellToolbar em;
     rowToolbar := rowToolbar em; optionsToolbar := optionsToolbar em |}.

Definition set_contextMenu (em : EditMode) (m : option EditContextMenu)
  : EditMode :=
  {| active := active em; dashboard := dashboard em;
     contextButtonElement := contextButtonElement em;
     contextMenu := m; cellToolbar := cellToolbar em;
     rowToolbar := rowToolbar em; optionsToolbar := optionsToolbar em |}.

Definition set_toolbars (em : EditMode)
    (cell row opts : option EditToolbar) : EditMode :=
  {| active := active em; dashboard := dashboard em;
     contextButtonElement := contextButtonElement em;
     contextMenu := contextMenu em; cellToolbar := cell;
     rowToolbar := row; optionsToolbar := opts |}.

Definition isActive (em : EditMode) : bool := active em.

(** [initContextMenu]: without a context button nothing is created. *)
Definition initContextMenu (cls : Classes) (em : EditMode) : EditMode :=
  let width := 150 in
  match contextButtonElement em with
  | Some contextButtonElement =>
      set_contextMenu em
        (Some (EditContextMenu_new cls em
                 {| style_width := width;
                    style_top := offsetTop contextButtonElement
                                 + offsetHeight contextButtonElement;
                    style_left := offsetLeft contextButtonElement - width
                                  + offsetWidth contextButtonElement |}))
  | None => em
  end.

Definition onContextBtnClick (cls : Classes) (editMode : EditMode)
  : EditMode :=
  let editMode :=
    match contextMenu editMode with
    | None => initContextMenu cls editMode
    | Some _ => editMode
    end in
  match contextMenu editMode with
  | Some m => set_contextMenu editMode (Some (setVisible (negb (isVisible m)) m))
  | None => editMode
  end.

Definition initLayoutResizer (d : Dashboard) (layout : Layout) : Layout :=
  match gui d with
  | Some guiOptions =>
      if resize guiOptions then {| resizer := Some Resizer_new |}
      else match resizerJSON guiOptions with
           | Some json => {| resizer := Some (Resizer_fromJSON json) |}
           | None => layout
           end
  | None => layout
  end.

Definition activateEditMode (cls : Classes) (em : EditMode)
    (btnElement : option HTMLDOMElement) : EditMode * option HTMLDOMElement :=
  let em := set_active em true in
  let d := dashboard em in
  let d := {| layouts :=
                map (fun layout =>
                       match resizer layout with
                       | None => initLayoutResizer d layout
                       | Some _ => layout
                       end) (layouts d);
              container_classList := container_classList d;
              gui := gui d |} in
  let em := set_dashboard em d in
  let em :=
    match cellToolbar em with
    | None => set_toolbars em (Some (CellEditToolbar_new cls em))
                (rowToolbar em) (optionsToolbar em)
    | Some _ => em
    end in
  let em :=
    match rowToolbar em with
    | None => set_toolbars em (cellToolbar em)
                (Some (RowEditToolbar_new cls em)) (optionsToolbar em)
    | Some _ => em
    end in
  let em :=
    match optionsToolbar em with
    | None => set_toolbars em (cellToolbar em) (rowToolbar em)
                (Some (OptionsToolbar_new cls em))
    | Some _ => em
    end in
  let btnElement := (fun b => css b "rgb(49 216 71)") <$> btnElement in
  let d := dashboard em in
  (set_dashboard em
     {| layouts := layouts d;
        container_classList :=
          classList_add editModeEnabled (container_classList d);
        gui := gui d |},
   btnElement).

Definition deactivateEditMode (em : EditMode)
    (btnElement : option HTMLDOMElement) : EditMode * option HTMLDOMElement :=
  let em := set_active em false in
  let btnElement := (fun b => css b "#555") <$> btnElement in
  let d := dashboard em in
  let em :=
    set_dashboard em
      {| layouts := layouts d;
         container_classList :=
           classList_remove editModeEnabled (container_classList d);
         gui := gui d |} in
  let em := set_toolbars em (hide <$> cellToolbar em) (rowToolbar em)
              (optionsToolbar em) in
  let em := set_toolbars em (cellToolbar em) (hide <$> rowToolbar em)
              (optionsToolbar em) in
  (em, btnElement).

Definition onEditModeToggle (cls : Classes) (em : EditMode)
    (btnElement : HTMLDOMElement) : EditMode * option HTMLDOMElement :=
  if active em then deactivateEditMode em (Some btnElement)
  else activateEditMode cls em (Some btnElement).

(** ** Properties of the edit mode *)

Lemma classList_remove_absent (token : string) (l : list string) :
  ~ In token (classList_remove token l).
Proof.
  unfold classList_remove. intros H. apply filter_In in H as [_ H].
  now rewrite String.eqb_refl in H.
Qed.

Lemma activateEditMode_active cls em btn :
  active (fst (activateEditMode cls em btn)) = true.
Proof.
  unfold activateEditMode.
  destruct em as [a d cb cm [ct |] [rt |] [ot |]]; reflexivity.
Qed.

Lemma deactivateEditMode_active em btn :
  active (fst (deactivateEditMode em btn)) = false.
Proof. reflexivity. Qed.

(** C6. A toggle negates the active flag: it deactivates an active
    controller and activates an inactive one. *)
Theorem onEditModeToggle_negates cls (em : EditMode) (btn : HTMLDOMElement) :
  isActive (fst (onEditModeToggle cls em btn)) = negb (isActive em)
  /\ onEditModeToggle cls em btn
     = (if isActive em then deactivateEditMode em (Some btn)
        else activateEditMode cls em (Some btn)).
Proof.
  unfold onEditModeToggle, isActive. split; [| reflexivity].
  destruct (active em).
  - apply deactivateEditMode_active.
  - apply activateEditMode_active.
Qed.

(** C7. After [deactivateEditMode] the controller is inactive, the
    container no longer carries the class of the enabled edit mode, and
    the cell and row toolbars, when they exist, are hidden. *)
Theorem deactivateEditMode_hides (em : EditMode)
    (btn : option HTMLDOMElement) :
  let em' := fst (deactivateEditMode em btn) in
  isActive em' = false
  /\ ~ In editModeEnabled (container_classList (dashboard em'))
  /\ cellToolbar em' = hide <$> cellToolbar em
  /\ rowToolbar em' = hide <$> rowToolbar em
  /\ (forall t, cellToolbar em' = Some t \/ rowToolbar em' = Some t ->
        toolbar_isVisible t = false).
Proof.
  intros em'. split; [reflexivity |]. split.
  - apply classList_remove_absent.
  - split; [reflexivity |]. split; [reflexivity |].
    intros t [H | H]; simpl in H.
    + destruct (cellToolbar em); [injection H as <- | discriminate].
      reflexivity.
    + destruct (rowToolbar em); [injection H as <- | discriminate].
      reflexivity.
Qed.

(** C8. [onContextBtnClick] negates the [isVisible] flag of an existing
    context menu; without a menu it first creates one when there is a
    context button, and the flag of the menu is then the negation of the
    flag it was created with; without a menu and without a button it
    changes nothing. *)
Theorem onContextBtnClick_flips cls (em : EditMode) :
  let em' := onContextBtnClick cls em in
  (forall m, contextMenu em = Some m ->
     exists m', contextMenu em' = Some m'
                /\ isVisible m' = negb (isVisible m))
  /\ (forall b, contextMenu em = None -> contextButtonElement em = Some b ->
        exists m0 m',
          contextMenu (initContextMenu cls em) = Some m0
          /\ contextMenu em' = Some m'
          /\ isVisible m' = negb (isVisible m0))
  /\ (contextMenu em = None -> contextButtonElement em = None -> em' = em).
Proof.
  intros em'. subst em'. unfold onContextBtnClick. split; [| split].
  - intros m Hm. rewrite Hm. simpl. rewrite Hm.
    eexists. split; reflexivity.
  - intros b Hm Hb. rewrite Hm. unfold initContextMenu. rewrite Hb. simpl.
    eexists. eexists. repeat split; reflexivity.
  - intros Hm Hb. rewrite Hm. unfold initContextMenu. rewrite Hb, Hm.
    reflexivity.
Qed.

(** ** A concrete dashboard *)

Definition sampleClasses : Classes :=
  {| CellEditToolbar_new := fun _ => {| toolbar_isVisible := true |};
     RowEditToolbar_new := fun _ => {| toolbar_isVisible := true |};
     OptionsToolbar_new := fun _ => {| toolbar_isVisible := false |};
     EditContextMenu_new := fun _ st => {| isVisible := false; style := st |} |}.

Definition sampleButton : HTMLDOMElement :=
  {| offsetTop := 10; offsetHeight := 20; offsetLeft := 300;
     offsetWidth := 40; color := "#555" |}.

Definition sampleEditMode : EditMode :=
  {| active := false;
     dashboard := {| layouts := [ {| resizer := None |} ];
                     container_classList := ["highcharts-dashboard"%string];
                     gui := Some {| resize := true; resizerJSON := None |} |};
     contextButtonElement := Some sampleButton;
     contextMenu := None;
     cellToolbar := None; rowToolbar := None; optionsToolbar := None |}.

Lemma onContextBtnClick_flips_witness :
  (exists m, contextMenu (onContextBtnClick sampleClasses sampleEditMode)
             = Some m /\ isVisible m = true)
  /\ (exists m, contextMenu
                  (onContextBtnClick sampleClasses
                     (onContextBtnClick sampleClasses sampleEditMode))
                = Some m /\ isVisible m = false).
Proof.
  split.
  - destruct (proj1 (proj2 (onContextBtnClick_flips sampleClasses
                              sampleEditMode)) sampleButton eq_refl eq_refl)
      as (m0 & m' & H0 & H' & Hv).
    exists m'. split; [exact H' |].
    rewrite Hv. injection H0 as <-. reflexivity.
  - destruct (proj1 (onContextBtnClick_flips sampleClasses
                       (onContextBtnClick sampleClasses sampleEditMode))
                {| isVisible := true;
                   style := {| style_width := 150; style_top := 30;
                               style_left := 190 |} |} eq_refl)
      as (m' & H' & Hv).
    exists m'. split; [exact H' | exact Hv].
Defined.

Example toggle_twice :
  let on := fst (onEditModeToggle sampleClasses sampleEditMode sampleButton) in
  let off := fst (onEditModeToggle sampleClasses on sampleButton) in
  isActive on = true
  /\ container_classList (dashboard on)
     = ["highcharts-dashboard"; "highcharts-dashboard-edit-enabled"]%string
  /\ layouts (dashboard on) = [ {| resizer := Some Resizer_new |} ]
  /\ isActive off = false
  /\ container_classList (dashboard off) = ["highcharts-dashboard"%string]
  /\ cellToolbar off = Some {| toolbar_isVisible := false |}
  /\ optionsToolbar off = Some {| toolbar_isVisible := false |}.
Proof. repeat split; reflexivity. Qed.

End EditMode.

(** ** Further properties of the raster of points *)
Module RasterFacts.
Import JS GeoHeatmapSeries.

(** The loop over a concatenation runs the loop over the first part and
    then, on its result, over the second. *)
Lemma fillPixels_app env axis c r (ps1 ps2 : list GeoHeatmapPoint)
    (buf : bytes) :
  fillPixels env axis c r (ps1 ++ ps2) buf
  = (buf1 ← fillPixels env axis c r ps1 buf;
     fillPixels env axis c r ps2 buf1).
Proof.
  revert buf. induction ps1 as [| p ps1 IH]; intros buf; [reflexivity |].
  simpl. destruct (fillPoint env axis c r buf p) as [buf1 | e]; simpl.
  - apply IH.
  - reflexivity.
Qed.






(** The points that reach the raster: both coordinates are numbers. *)
Definition hasCoordinates (p : GeoHeatmapPoint) : bool :=
  defined (options_lon p) && defined (options_lat p).

(** X2. Points without numeric [lon] or [lat] leave no trace in the
    raster: when every colour can be computed, the loop gives the same
    result as on the points that have both coordinates. *)
Theorem fillPixels_skips_points_without_coordinates env axis c r
    (ps : list GeoHeatmapPoint) (buf : bytes) :
  Forall (fun p => exists rgba, colorFromPoint env axis p = Normal rgba) ps ->
  fillPixels env axis c r ps buf
  = fillPixels env axis c r (List.filter hasCoordinates ps) buf.
Proof.
  intros Hcol. revert buf.
  induction Hcol as [| p ps [rgba Hc] _ IH]; intros buf; [reflexivity |].
  simpl. unfold hasCoordinates at 1.
  destruct (options_lon p) as [lon |] eqn:Elon;
    destruct (options_lat p) as [lat |] eqn:Elat; simpl.
  - destruct (fillPoint env axis c r buf p); simpl; [apply IH | reflexivity].
  - rewrite (fillPoint_skip env axis c r buf p rgba Hc)
      by (unfold pixelOf; now rewrite Elon, Elat).
    apply IH.
  - rewrite (fillPoint_skip env axis c r buf p rgba Hc)
      by (unfold pixelOf; now rewrite Elon).
    apply IH.
  - rewrite (fillPoint_skip env axis c r buf p rgba Hc)
      by (unfold pixelOf; now rewrite Elon).
    apply IH.
Qed.

Lemma fillPixels_skips_points_without_coordinates_witness :
  fillPixels sampleEnv sampleAxis 90 90 samplePoints (replicate 60 0)
  = fillPixels sampleEnv sampleAxis 90 90
      (List.filter hasCoordinates samplePoints) (replicate 60 0)
  /\ length (List.filter hasCoordinates samplePoints) = 4%nat.
Proof.
  split; [| reflexivity].
  apply (fillPixels_skips_points_without_coordinates sampleEnv sampleAxis
           90 90 samplePoints).
  repeat (constructor; [eexists; reflexivity |]). constructor.
Defined.

(** X3. The colour of a point is computed before its coordinates are
    looked at: once the points before it were stored normally, a point
    whose colour string has no parenthesised body aborts the loop with
    [TypeError], whether or not it has coordinates. *)
Theorem fillPixels_colour_failure env axis c r
    (ps1 ps2 : list GeoHeatmapPoint) (p : GeoHeatmapPoint)
    (buf buf1 : bytes) :
  fillPixels env axis c r ps1 buf = Normal buf1 ->
  colorBody (toColor axis (or_zero (value p)) p) = None ->
  fillPixels env axis c r (ps1 ++ p :: ps2) buf = Throw TypeError.
Proof.
  intros Hrun Hbody. rewrite fillPixels_app, Hrun. simpl.
  unfold fillPoint, colorFromPoint. rewrite Hbody. reflexivity.
Qed.

Definition hexAxis : ColorAxis :=
  {| toColor := fun v _ =>
       if Qltb v 50 then "rgb(0,0,255)"%string else "#ff0000"%string |}.

Lemma fillPixels_colour_failure_witness :
  fillPixels sampleEnv hexAxis 90 90
    ([samplePoint 0 0 (Some 10%Q)]
     ++ {| options_lon := None; options_lat := None; value := Some 60%Q |}
     :: [samplePoint 90 0 (Some 10%Q)])
    (replicate 60 0)
  = Throw TypeError.
Proof.
  eapply fillPixels_colour_failure; reflexivity.
Defined.



(** ** The colour string *)

(** Whether a character occurs in a string. *)
Fixpoint occurs (c : ascii) (s : string) : bool :=
  match s with
  | EmptyString => false
  | String c' s' => Ascii.eqb c' c || occurs c s'
  end.

Lemma occurs_append c (s1 s2 : string) :
  occurs c (s1 ++ s2) = occurs c s1 || occurs c s2.
Proof.
  induction s1 as [| c1 s1 IH]; simpl; [reflexivity |].
  rewrite IH. apply orb_assoc.
Qed.

Lemma split_without sep (s : string) :
  occurs sep s = false -> split sep s = [s].
Proof.
  induction s as [| c s IH]; simpl; [reflexivity |].
  intros H. apply orb_false_iff in H as [Hc Hs].
  rewrite Hc, (IH Hs). reflexivity.
Qed.

Lemma split_at_first sep (s1 s2 : string) :
  occurs sep s1 = false ->
  split sep (s1 ++ String sep s2) = s1 :: split sep s2.
Proof.
  induction s1 as [| c s1 IH]; simpl.
  - intros _. now rewrite Ascii.eqb_refl.
  - intros H. apply orb_false_iff in H as [Hc Hs].
    rewrite Hc, (IH Hs). reflexivity.
Qed.

Lemma append_String_assoc (s1 s2 s3 : string) (c : ascii) :
  (s1 ++ String c (s2 ++ s3))%string = ((s1 ++ String c s2) ++ s3)%string.
Proof.
  induction s1 as [| c1 s1 IH]; simpl; [reflexivity |]. now rewrite IH.
Qed.

(** X5. A colour in functional notation, a name without parentheses
    followed by a parenthesised body without parentheses, is cut to its
    body, whatever follows the closing parenthesis. *)
Theorem colorBody_functional (prefix body rest : string) :
  occurs "("%char prefix = false -> occurs ")"%char prefix = false ->
  occurs "("%char body = false -> occurs ")"%char body = false ->
  colorBody (prefix ++ String "("%char (body ++ String ")"%char rest))
  = Some body.
Proof.
  intros Hp1 Hp2 Hb1 Hb2. unfold colorBody.
  rewrite append_String_assoc.
  rewrite split_at_first.
  - simpl hd. rewrite (split_at_first "("%char prefix body Hp1).
    now rewrite (split_without "("%char body Hb1).
  - rewrite occurs_append. simpl. rewrite Hp2, Hb2. reflexivity.
Qed.

Lemma colorBody_functional_witness :
  colorBody ("rgba" ++ String "("%char ("0,0,255,0.5" ++ String ")"%char ""))
  = Some "0,0,255,0.5"%string.
Proof. apply colorBody_functional; reflexivity. Defined.

Lemma occurs_first_piece c sep (s : string) :
  occurs c s = false -> occurs c (hd EmptyString (split sep s)) = false.
Proof.
  induction s as [| c' s IH]; simpl; [reflexivity |].
  intros H. apply orb_false_iff in H as [Hc Hs].
  destruct (Ascii.eqb c' sep); [reflexivity |].
  specialize (IH Hs).
  destruct (split sep s) as [| h t]; simpl in *.
  - now rewrite Hc.
  - now rewrite Hc, IH.
Qed.

(** X6. A colour string without an opening parenthesis, such as a
    hexadecimal colour or a colour name, makes [colorFromPoint] throw
    [TypeError] for every point. *)
Theorem colorFromPoint_without_parenthesis env axis (p : GeoHeatmapPoint) :
  occurs "("%char (toColor axis (or_zero (value p)) p) = false ->
  colorFromPoint env axis p = Throw TypeError.
Proof.
  intros H. unfold colorFromPoint, colorBody.
  rewrite (split_without "("%char _ (occurs_first_piece _ ")"%char _ H)).
  reflexivity.
Qed.

Lemma colorFromPoint_without_parenthesis_witness :
  colorFromPoint sampleEnv hexAxis (samplePoint 0 0 (Some 60%Q))
  = Throw TypeError.
Proof. apply colorFromPoint_without_parenthesis. reflexivity. Defined.

Lemma array_assign_length (a : array) (i : nat) (v : number) :
  length (array_assign a i v) = Nat.max (length a) (S i).
Proof.
  unfold array_assign. destruct (i <? length a)%nat eqn:E.
  - apply Nat.ltb_lt in E. rewrite length_insert. lia.
  - apply Nat.ltb_ge in E.
    rewrite !length_app, length_replicate. simpl. lia.
Qed.

Lemma array_get_assign_other (a : array) (i j : nat) (v : number) :
  i <> j -> array_get (array_assign a i v) j = array_get a j.
Proof.
  intros Hne. unfold array_get, array_assign.
  destruct (i <? length a)%nat eqn:E.
  - now rewrite list_lookup_insert_ne.
  - apply Nat.ltb_ge in E.
    destruct (decide (j < length a)%nat) as [Hj | Hj].
    + now rewrite lookup_app_l.
    + rewrite (lookup_ge_None_2 a j) by lia.
      rewrite lookup_app_r by lia.
      destruct (decide (j - length a < i - length a)%nat) as [Hh | Hh].
      * rewrite lookup_app_l by (rewrite length_replicate; lia).
        now rewrite lookup_replicate_2.
      * rewrite lookup_app_r by (rewrite length_replicate; lia).
        rewrite length_replicate.
        destruct (j - length a - (i - length a))%nat as [| k] eqn:Ek;
          [lia | reflexivity].
Qed.

(** X7. For a colour with a parenthesised body of [n] comma-separated
    components, [colorFromPoint] returns an array of [max 4 n] entries
    whose first three entries are the parsed components (a missing one is
    a hole); only the entry at index 3 is rewritten. *)
Theorem colorFromPoint_components env axis (p : GeoHeatmapPoint)
    (body : string) :
  colorBody (toColor axis (or_zero (value p)) p) = Some body ->
  exists rgba : array,
    colorFromPoint env axis p = Normal rgba
    /\ length rgba = Nat.max 4 (length (split ","%char body))
    /\ forall i : nat, i <> 3%nat ->
         array_get rgba i = parseFloat env <$> split ","%char body !! i.
Proof.
  intros Hbody. unfold colorFromPoint. rewrite Hbody.
  eexists. split; [reflexivity |].
  destruct (defined (value p)).
  - split.
    + rewrite array_assign_length, length_map. lia.
    + intros i Hi. rewrite array_get_assign_other by congruence.
      apply array_get_parsed.
  - split.
    + rewrite !array_assign_length, length_map. lia.
    + intros i Hi. rewrite !array_get_assign_other by congruence.
      apply array_get_parsed.
Qed.

Lemma colorFromPoint_components_witness :
  exists rgba : array,
    colorFromPoint sampleEnv sampleAxis (samplePoint 0 0 (Some 60%Q))
    = Normal rgba
    /\ length rgba = 4%nat
    /\ array_get rgba 0 = Some 255%Q.
Proof.
  destruct (colorFromPoint_components sampleEnv sampleAxis
              (samplePoint 0 0 (Some 60%Q)) "255,0,0" eq_refl)
    as (rgba & Hrun & Hlen & Hget).
  exists rgba. split; [exact Hrun |]. split; [exact Hlen |].
  rewrite (Hget 0%nat) by discriminate. reflexivity.
Defined.

End RasterFacts.

(** ** Further properties of the sampling loop *)
Module SamplingFacts.
Import JS GeoHeatmapSeries.



Lemma cvs2PixelY_affine (h : Z) (lat : number) :
  (cvs2PixelY h lat == (90 - lat) * inject_Z h * (1 # 180))%Q.
Proof. unfold cvs2PixelY. field. Qed.






Lemma Math_round_bounds (px : number) (lo hi : Z) :
  (inject_Z lo - (1 # 2) <= px)%Q -> (px < inject_Z hi - (1 # 2))%Q ->
  lo <= Math_round px < hi.
Proof.
  intros Hlo Hhi. unfold Math_round. apply Qfloor_bounds; lra.
Qed.

(** X9. A source position at least half a pixel left of the right edge
    and above the bottom edge is read inside the interpolation buffer: the
    four bytes at [redPos] exist in a buffer of [w * h * 4] bytes. *)
Theorem redPos_in_buffer (w h : Z) (px py : number) (cartesian : bytes)
    (k : Z) :
  Z.of_nat (length cartesian) = w * h * 4 ->
  (0 <= px)%Q -> (px < inject_Z w - (1 # 2))%Q ->
  (0 <= py)%Q -> (py < inject_Z h)%Q ->
  0 <= k < 4 ->
  is_Some (typedarray_get cartesian (redPos w px py + k)).
Proof.
  intros Hlen Hx0 Hx1 Hy0 Hy1 Hk.
  assert (Hr : 0 <= Math_round px < w).
  { apply Math_round_bounds; [| exact Hx1]. change (inject_Z 0) with 0%Q. lra. }
  assert (Hf : 0 <= Math_floor py < h).
  { apply Qfloor_bounds; [exact Hy0 | exact Hy1]. }
  unfold typedarray_get, redPos.
  destruct (_ <? 0) eqn:E; [apply Z.ltb_lt in E; nia |].
  apply lookup_lt_is_Some. nia.
Qed.

Lemma redPos_in_buffer_witness :
  is_Some (typedarray_get sampleCartesian
             (redPos 4 (5 # 2) (3 # 2) + 3)).
Proof.
  apply (redPos_in_buffer 4 2 (5 # 2) (3 # 2) sampleCartesian 3);
    first [reflexivity | discriminate | lia].
Defined.

(** X10. Within half a pixel of the right edge the column rounds to the
    width of the canvas, and the index read is that of the first pixel of
    the next row. *)
Theorem redPos_right_edge (w : Z) (px py : number) :
  (inject_Z w - (1 # 2) <= px)%Q -> (px <= inject_Z w)%Q ->
  Math_round px = w
  /\ redPos w px py = ((Math_floor py + 1) * w + 0) * 4.
Proof.
  intros H0 H1.
  assert (Hr : w <= Math_round px < w + 1).
  { apply Math_round_bounds; [exact H0 |]. rewrite inject_Z_plus.
    change (inject_Z 1) with 1%Q. lra. }
  assert (Math_round px = w) as Hw by lia.
  split; [exact Hw |]. unfold redPos. rewrite Hw. ring.
Qed.

Lemma redPos_right_edge_witness :
  Math_round (cvs2PixelX 8 (1799 # 10)) = 8
  /\ redPos 8 (cvs2PixelX 8 (1799 # 10)) (1 # 2) = ((0 + 1) * 8 + 0) * 4.
Proof.
  apply (redPos_right_edge 8 (cvs2PixelX 8 (1799 # 10)) (1 # 2));
    discriminate.
Defined.

(** X11. A pixel of the map whose inverse projection has latitude -90 is
    left transparent: its source row is [canvas.height], one past the last
    row of the interpolation buffer. *)
Theorem south_pole_transparent mv d (w h : Z) (cartesian : bytes)
    (pw ph : Z) (n k : nat) (c : LonLat) :
  0 < pw -> Z.of_nat n < pw * ph -> (k < 4)%nat ->
  0 <= w -> Z.of_nat (length cartesian) <= w * h * 4 ->
  pixelsToLonLat mv
    {| x := (dim_x d + inject_Z (Z.of_nat n mod pw))%Q;
       y := (dim_y d + inject_Z (Z.of_nat n / pw))%Q |} = Some c ->
  (lat c == -90)%Q ->
  projectPixels mv d w h cartesian pw (replicate (Z.to_nat (pw * ph * 4)) 0)
    !! (4 * n + k)%nat = Some 0.
Proof.
  intros Hpw Hn Hk Hw Hlen Hc Hlat.
  rewrite (projectPixels_sampled mv d w h cartesian pw ph n k Hpw Hn Hk).
  unfold sampled. rewrite Hc. cbv zeta.
  destruct (insideCanvas w h _ _) eqn:E; [| reflexivity].
  apply insideCanvas_spec in E as (Hx0 & _ & _ & _).
  assert (Hpy : (cvs2PixelY h (lat c) == inject_Z h)%Q).
  { rewrite SamplingFacts.cvs2PixelY_affine, Hlat. field. }
  assert (Hf : Math_floor (cvs2PixelY h (lat c)) = h).
  { unfold Math_floor. rewrite Hpy. apply Qfloor_Z. }
  assert (Hr : 0 <= Math_round (cvs2PixelX w (projectedLon mv c))).
  { unfold Math_round.
    apply (Qfloor_bounds _ 0 (Qfloor (cvs2PixelX w (projectedLon mv c)
                                      + (1 # 2)) + 1)).
    - change (inject_Z 0) with 0%Q. lra.
    - apply Qlt_floor. }
  unfold typedarray_get, redPos. rewrite Hf.
  destruct (_ <? 0); [reflexivity |].
  rewrite lookup_ge_None_2; [reflexivity |]. nia.
Qed.

Definition poleMapView : MapView :=
  {| projectedUnitsToPixels := fun p => Some p;
     pixelsToLonLat := fun p =>
       Some {| lon := (x p * 90 - 180)%Q; lat := (90 - y p * 180)%Q |};
     projection_options := {| name := "Miller"; rotation := None |} |}.

Lemma south_pole_transparent_witness :
  projectPixels poleMapView sampleDimensions 4 2 sampleCartesian 4
    (replicate (Z.to_nat (4 * 2 * 4)) 0) !! (4 * 5 + 1)%nat = Some 0.
Proof.
  apply (south_pole_transparent poleMapView sampleDimensions 4 2
           sampleCartesian 4 2 5 1 {| lon := -90; lat := -90 |});
    first [reflexivity | lia].
Defined.

End SamplingFacts.

(** ** Further properties of [getContext] and [drawPoints] *)
Module DrawPointsFacts.
Import JS GeoHeatmapSeries.

(** X12. [getContext] returns the context that the series holds
    afterwards, and the series then has a canvas.  A series with canvas
    and context is unchanged and the canvas is cleared at its size; in
    every other case, also when a canvas exists without a context, the
    canvas is replaced by a new one and the context is the one the
    browser gives for it. *)
Theorem getContext_result env (s : Series) :
  let '(s', ctx, tr) := getContext env s in
  ctx = context s'
  /\ is_Some (canvas s')
  /\ (forall cv c, canvas s = Some cv -> context s = Some c ->
        s' = s /\ tr = [ClearRect (width cv) (height cv)])
  /\ (canvas s = None \/ context s = None ->
        canvas s' = Some createCanvas /\ context s' = getContext2d env
        /\ tr = []).
Proof.
  unfold getContext.
  destruct (canvas s) as [cv |] eqn:Ecv, (context s) as [c |] eqn:Ectx;
    simpl; rewrite ?Ecv; repeat split; eauto;
    try (simplify_eq; reflexivity);
    try match goal with
        | H : _ \/ _ |- _ => destruct H; discriminate
        end.
Qed.

(** The first step of the guarded branch of [drawPoints]:
    [series.context || series.getContext()]. *)
Definition prepare (env : Env) (s : Series)
  : Series * option Context * list Event :=
  match context s with
  | Some c => (s, Some c, [])
  | None => getContext env s
  end.

(** The statements of [drawPoints] under [if (canvas && ctx && colorAxis)]. *)
Definition render (env : Env) (mv : MapView) (axis : ColorAxis)
    (d : Dimensions) (s1 : Series) (cv : Canvas) (tr1 : list Event)
  : completion (Series * list Event) :=
  '(cv', tr2) ←
    (if isDirtyCanvas s1
        || String.eqb (name (projection_options mv)) "Orthographic"
     then recomputeCanvas env mv axis s1 d
     else Normal (cv, []));
  let s2 := set_canvas_context s1 (Some cv') (context s1) in
  let '(s3, tr3) := updateImage s2 d cv' in
  Normal (s3, tr1 ++ tr2 ++ tr3).

Definition dimensionsBetween (topLeft bottomRight : PositionObject)
  : Dimensions :=
  {| dim_x := x topLeft; dim_y := y topLeft;
     dim_width := (x bottomRight - x topLeft)%Q;
     dim_height := (y bottomRight - y topLeft)%Q |}.

(** [drawPoints] is these two steps under its guards. *)
Lemma drawPoints_steps env (s : Series) :
  drawPoints env s
  = match interpolation (options s), mapView (chart s), bounds s with
    | true, Some mv, Some b =>
        match projectedUnitsToPixels mv {| x := x1 b; y := y2 b |},
              projectedUnitsToPixels mv {| x := x2 b; y := y1 b |} with
        | Some topLeft, Some bottomRight =>
            let '(s1, ctx, tr1) := prepare env s in
            match canvas s1, ctx, colorAxis (chart s) with
            | Some cv, Some _, Some axis =>
                render env mv axis (dimensionsBetween topLeft bottomRight)
                  s1 cv tr1
            | _, _, _ => Normal (s1, tr1)
            end
        | _, _ => Normal (s, [])
        end
    | _, _, _ => Normal (s, [SuperDrawPoints])
    end.
Proof. reflexivity. Qed.

Lemma prepare_frame env (s s1 : Series) ctx tr1 :
  prepare env s = (s1, ctx, tr1) ->
  chart s1 = chart s /\ options s1 = options s
  /\ bounds s1 = bounds s /\ points s1 = points s
  /\ image s1 = image s /\ isDirtyCanvas s1 = isDirtyCanvas s
  /\ (is_Some (canvas s) -> is_Some (canvas s1))
  /\ ctx = context s1.
Proof.
  unfold prepare, getContext.
  destruct (context s) as [c |] eqn:Ec.
  - intros [= <- <- <-]. rewrite Ec. repeat split; auto.
  - destruct (canvas s); intros [= <- <- <-]; repeat split; eauto.
Qed.

Lemma render_frame env mv axis d (s1 s' : Series) cv tr1 tr :
  render env mv axis d s1 cv tr1 = Normal (s', tr) ->
  chart s' = chart s1 /\ options s' = options s1
  /\ bounds s' = bounds s1 /\ points s' = points s1
  /\ is_Some (canvas s') /\ is_Some (image s')
  /\ context s' = context s1
  /\ isDirtyCanvas s' = match image s1 with
                        | Some _ => isDirtyCanvas s1
                        | None => false
                        end.
Proof.
  unfold render. intros H.
  assert (Hdone : forall cv' tr2,
            (let s2 := set_canvas_context s1 (Some cv') (context s1) in
             let '(s3, tr3) := updateImage s2 d cv' in
             Normal (s3, tr1 ++ tr2 ++ tr3)) = Normal (s', tr) ->
            chart s' = chart s1 /\ options s' = options s1
            /\ bounds s' = bounds s1 /\ points s' = points s1
            /\ is_Some (canvas s') /\ is_Some (image s')
            /\ context s' = context s1
            /\ isDirtyCanvas s' = match image s1 with
                                  | Some _ => isDirtyCanvas s1
                                  | None => false
                                  end).
  { intros cv' tr2 H'. unfold updateImage in H'. simpl in H'.
    destruct (image s1) as [i |] eqn:Ei.
    - destruct (globalAnimation (chart s1) && hasRendered (chart s1));
        injection H' as <- <-; simpl; rewrite ?Ei; repeat split; eauto.
    - injection H' as <- <-; simpl; repeat split; eauto. }
  destruct (isDirtyCanvas s1 || _).
  - destruct (recomputeCanvas env mv axis s1 d) as [[cv' tr2] | e];
      simpl in H; [| discriminate].
    now apply (Hdone cv' tr2).
  - simpl in H. now apply (Hdone cv []).
Qed.

(** The normal outcomes of [drawPoints]: the series as it was, the series
    after [prepare], or the result of [render]. *)
Lemma drawPoints_outcomes (P : Series -> list Event -> Prop) env
    (s : Series) :
  (forall t, P s t) ->
  (forall s1 ctx tr1, prepare env s = (s1, ctx, tr1) -> P s1 tr1) ->
  (forall s1 ctx tr1 mv axis d cv s' tr,
     prepare env s = (s1, ctx, tr1) ->
     render env mv axis d s1 cv tr1 = Normal (s', tr) -> P s' tr) ->
  forall s' tr, drawPoints env s = Normal (s', tr) -> P s' tr.
Proof.
  intros Hsame Hprep Hrender s' tr. rewrite drawPoints_steps.
  destruct (interpolation (options s));
    [| destruct (mapView (chart s)); [destruct (bounds s) |];
       intros [= <- <-]; apply Hsame].
  destruct (mapView (chart s)) as [mv |]; [| intros [= <- <-]; apply Hsame].
  destruct (bounds s) as [b |]; [| intros [= <- <-]; apply Hsame].
  destruct (projectedUnitsToPixels mv _) as [topLeft |];
    [| intros [= <- <-]; apply Hsame].
  destruct (projectedUnitsToPixels mv _) as [bottomRight |];
    [| intros [= <- <-]; apply Hsame].
  destruct (prepare env s) as [[s1 ctx] tr1] eqn:Ep.
  destruct (canvas s1) as [cv |], ctx as [c |],
    (colorAxis (chart s)) as [axis |];
    try (intros [= <- <-]; eapply Hprep; reflexivity).
  intros H. eapply Hrender; [reflexivity | exact H].
Qed.

(** X13. [drawPoints] never changes the chart, the options, the bounds or
    the points of the series; it never removes the canvas or the image;
    and when the series already has an image it leaves the flag
    [isDirtyCanvas] as it was: only the creation of the image clears the
    flag. *)
Theorem drawPoints_frame env (s s' : Series) (tr : list Event) :
  drawPoints env s = Normal (s', tr) ->
  chart s' = chart s /\ options s' = options s
  /\ bounds s' = bounds s /\ points s' = points s
  /\ (is_Some (canvas s) -> is_Some (canvas s'))
  /\ (is_Some (image s) ->
      is_Some (image s') /\ isDirtyCanvas s' = isDirtyCanvas s).
Proof.
  revert s' tr.
  apply (drawPoints_outcomes
           (fun s' _ =>
              chart s' = chart s /\ options s' = options s
              /\ bounds s' = bounds s /\ points s' = points s
              /\ (is_Some (canvas s) -> is_Some (canvas s'))
              /\ (is_Some (image s) ->
                  is_Some (image s')
                  /\ isDirtyCanvas s' = isDirtyCanvas s))).
  - intros _. repeat split; auto.
  - intros s1 ctx tr1 Ep.
    apply prepare_frame in Ep as (Hc & Ho & Hb & Hp & Hi & Hd & Hcv & _).
    rewrite Hi. repeat split; auto.
  - intros s1 ctx tr1 mv axis d cv s' tr Ep Hr.
    apply prepare_frame in Ep as (Hc & Ho & Hb & Hp & Hi & Hd & Hcv & _).
    apply render_frame in Hr
      as (Hc' & Ho' & Hb' & Hp' & Hcv' & Hi' & _ & Hd').
    repeat split; try congruence; auto.
    destruct H as [i Himg]. rewrite Hi, Himg in Hd'. congruence.
Qed.

Lemma drawPoints_frame_witness :
  exists s' tr,
    drawPoints sampleEnv sampleSeries = Normal (s', tr)
    /\ points s' = points sampleSeries
    /\ options s' = options sampleSeries.
Proof.
  eexists. eexists. split; [reflexivity |].
  split;
    apply (drawPoints_frame sampleEnv sampleSeries _ _ eq_refl).
Defined.











End DrawPointsFacts.

(** ** Further properties of the edit mode *)
Module EditModeFacts.
Import EditMode.

Lemma classList_add_present (token : string) (l : list string) :
  In token (classList_add token l).
Proof.
  unfold classList_add. destruct (existsb (String.eqb token) l) eqn:E.
  - apply existsb_exists in E as (t & Ht & Heq).
    apply String.eqb_eq in Heq. now subst.
  - apply in_or_app. right. now left.
Qed.

Lemma existsb_eqb_In (token : string) (l : list string) :
  existsb (String.eqb token) l = true <-> In token l.
Proof.
  rewrite existsb_exists. split.
  - intros (t & Ht & Heq). apply String.eqb_eq in Heq. now subst.
  - intros H. exists token. split; [exact H | apply String.eqb_refl].
Qed.

Lemma classList_add_idempotent (token : string) (l : list string) :
  classList_add token (classList_add token l) = classList_add token l.
Proof.
  unfold classList_add at 1.
  now rewrite (proj2 (existsb_eqb_In _ _) (classList_add_present token l)).
Qed.

Lemma classList_remove_absent_id (token : string) (l : list string) :
  ~ In token l -> classList_remove token l = l.
Proof.
  unfold classList_remove. induction l as [| t l IH]; simpl; [reflexivity |].
  intros H. destruct (String.eqb token t) eqn:E; simpl.
  - apply String.eqb_eq in E. exfalso. apply H. now left.
  - rewrite IH; [reflexivity |]. intros Hin. apply H. now right.
Qed.

Lemma classList_remove_add (token : string) (l : list string) :
  ~ In token l -> classList_remove token (classList_add token l) = l.
Proof.
  intros H. unfold classList_add.
  destruct (existsb (String.eqb token) l) eqn:E.
  - apply existsb_eqb_In in E. contradiction.
  - unfold classList_remove. rewrite List.filter_app. simpl.
    rewrite String.eqb_refl. simpl. rewrite app_nil_r.
    now apply classList_remove_absent_id.
Qed.

(** The step of the loop over the layouts in [activateEditMode]. *)
Definition ensureResizer (d : Dashboard) (layout : Layout) : Layout :=
  match resizer layout with
  | None => initLayoutResizer d layout
  | Some _ => layout
  end.

Lemma ensureResizer_idempotent (d d' : Dashboard) (layout : Layout) :
  gui d' = gui d ->
  ensureResizer d' (ensureResizer d layout) = ensureResizer d layout.
Proof.
  intros Hg. unfold ensureResizer, initLayoutResizer. rewrite Hg.
  destruct layout as [[r |]]; simpl; [reflexivity |].
  destruct (gui d) as [g |]; simpl; [| reflexivity].
  destruct (resize g); simpl; [reflexivity |].
  destruct (resizerJSON g); reflexivity.
Qed.

Lemma activateEditMode_class cls (em : EditMode)
    (btn : option HTMLDOMElement) :
  In editModeEnabled
    (container_classList (dashboard (fst (activateEditMode cls em btn)))).
Proof.
  destruct em as [a d cb cm ct rt ot]. unfold activateEditMode.
  destruct ct, rt, ot; simpl; apply classList_add_present.
Qed.

(** X17. After [activateEditMode] the controller is active, the container
    carries the class of the enabled edit mode, and the cell, row and
    options toolbars exist; a toolbar that existed before is kept and not
    created again; the number of layouts is unchanged, a layout keeps the
    resizer it had, and with [layoutOptions.resize] set every layout has
    a resizer. *)
Theorem activateEditMode_result cls (em : EditMode)
    (btn : option HTMLDOMElement) :
  let em' := fst (activateEditMode cls em btn) in
  isActive em' = true
  /\ In editModeEnabled (container_classList (dashboard em'))
  /\ is_Some (cellToolbar em') /\ is_Some (rowToolbar em')
  /\ is_Some (optionsToolbar em')
  /\ (forall t, cellToolbar em = Some t -> cellToolbar em' = Some t)
  /\ (forall t, rowToolbar em = Some t -> rowToolbar em' = Some t)
  /\ (forall t, optionsToolbar em = Some t -> optionsToolbar em' = Some t)
  /\ layouts (dashboard em')
     = map (ensureResizer (dashboard em)) (layouts (dashboard em))
  /\ (forall i l r, layouts (dashboard em) !! i = Some l ->
        resizer l = Some r ->
        layouts (dashboard em') !! i = Some l)
  /\ (forall g, gui (dashboard em) = Some g -> resize g = true ->
        Forall (fun l => is_Some (resizer l)) (layouts (dashboard em'))).
Proof.
  intros em'. subst em'.
  destruct em as [a d cb cm ct rt ot]. unfold activateEditMode. simpl.
  assert (Hl : forall L : list Layout,
             L = map (ensureResizer d) (layouts d) ->
             (forall i l r, layouts d !! i = Some l -> resizer l = Some r ->
                L !! i = Some l)
             /\ (forall g, gui d = Some g -> resize g = true ->
                   Forall (fun l => is_Some (resizer l)) L)).
  { intros L ->. split.
    - intros i l r Hi Hr. rewrite list_lookup_fmap, Hi. simpl.
      unfold ensureResizer. now rewrite Hr.
    - intros g Hg Hres. apply Forall_forall. intros l Hin.
      apply list_elem_of_fmap in Hin as (l0 & -> & _).
      unfold ensureResizer, initLayoutResizer.
      destruct (resizer l0) eqn:E; [rewrite E; eauto |].
      rewrite Hg, Hres. simpl. eauto. }
  destruct ct as [ct |], rt as [rt |], ot as [ot |]; simpl;
    repeat match goal with |- _ /\ _ => split end;
    first [ reflexivity
          | apply classList_add_present
          | solve [eauto]
          | solve [intros t H; first [exact H | discriminate H]]
          | apply (proj1 (Hl _ eq_refl))
          | apply (proj2 (Hl _ eq_refl)) ].
Qed.

Lemma map_ensureResizer_idempotent (d d' : Dashboard) (ls : list Layout) :
  gui d' = gui d ->
  map (ensureResizer d') (map (ensureResizer d) ls)
  = map (ensureResizer d) ls.
Proof.
  intros Hg. rewrite map_map. apply map_ext. intros l.
  now apply ensureResizer_idempotent.
Qed.

(** The dashboard as [activateEditMode] leaves it. *)
Definition activatedDashboard (d : Dashboard) : Dashboard :=
  {| layouts := map (ensureResizer d) (layouts d);
     container_classList :=
       classList_add editModeEnabled (container_classList d);
     gui := gui d |}.

Lemma activatedDashboard_idempotent (d : Dashboard) :
  activatedDashboard (activatedDashboard d) = activatedDashboard d.
Proof.
  unfold activatedDashboard. simpl.
  rewrite classList_add_idempotent.
  now rewrite map_ensureResizer_idempotent.
Qed.

(** Activation of a controller that has its three toolbars. *)
Lemma activateEditMode_with_toolbars cls a d cb cm ct rt ot btn :
  fst (activateEditMode cls
         {| active := a; dashboard := d; contextButtonElement := cb;
            contextMenu := cm; cellToolbar := Some ct;
            rowToolbar := Some rt; optionsToolbar := Some ot |} btn)
  = {| active := true; dashboard := activatedDashboard d;
       contextButtonElement := cb; contextMenu := cm;
       cellToolbar := Some ct; rowToolbar := Some rt;
       optionsToolbar := Some ot |}.
Proof. reflexivity. Qed.

(** What activation leaves besides the toolbars. *)
Lemma activateEditMode_fields cls (em : EditMode)
    (btn : option HTMLDOMElement) :
  let em' := fst (activateEditMode cls em btn) in
  active em' = true
  /\ dashboard em' = activatedDashboard (dashboard em)
  /\ contextButtonElement em' = contextButtonElement em
  /\ contextMenu em' = contextMenu em
  /\ is_Some (cellToolbar em') /\ is_Some (rowToolbar em')
  /\ is_Some (optionsToolbar em').
Proof.
  destruct em as [a d cb cm [ct |] [rt |] [ot |]];
    cbv zeta; unfold activateEditMode; simpl; repeat split; eauto.
Qed.

(** X18. Activating an active edit mode again changes nothing: the state
    after two activations is the state after one (no second toolbar, no
    second resizer, no duplicate class name). *)
Theorem activateEditMode_idempotent cls (em : EditMode)
    (btn btn' : option HTMLDOMElement) :
  fst (activateEditMode cls (fst (activateEditMode cls em btn)) btn')
  = fst (activateEditMode cls em btn).
Proof.
  pose proof (activateEditMode_fields cls em btn)
    as (Ha & Hd & Hcb & Hcm & [ct Hct] & [rt Hrt] & [ot Hot]).
  destruct (fst (activateEditMode cls em btn)) as [a d cb cm c r o].
  simpl in Ha, Hd, Hcb, Hcm, Hct, Hrt, Hot. subst.
  rewrite activateEditMode_with_toolbars.
  now rewrite activatedDashboard_idempotent.
Qed.

(** X19. Deactivating right after activating restores the active flag
    and, when the container did not carry the class of the enabled edit
    mode, its class list; the resizers and toolbars that the activation
    created stay, the cell and row toolbars hidden. *)
Theorem activate_then_deactivate cls (em : EditMode)
    (btn btn' : option HTMLDOMElement) :
  ~ In editModeEnabled (container_classList (dashboard em)) ->
  let on := fst (activateEditMode cls em btn) in
  let off := fst (deactivateEditMode on btn') in
  isActive off = false
  /\ container_classList (dashboard off)
     = container_classList (dashboard em)
  /\ layouts (dashboard off) = layouts (dashboard on)
  /\ cellToolbar off = hide <$> cellToolbar on
  /\ rowToolbar off = hide <$> rowToolbar on
  /\ optionsToolbar off = optionsToolbar on
  /\ is_Some (cellToolbar off) /\ is_Some (rowToolbar off).
Proof.
  intros Hnot on off. subst on off.
  destruct em as [a d cb cm ct rt ot]. unfold activateEditMode. simpl in *.
  destruct ct as [ct |], rt as [rt |], ot as [ot |]; simpl;
    rewrite (classList_remove_add _ _ Hnot); repeat split; eauto.
Qed.

Lemma activate_then_deactivate_witness :
  let on := fst (activateEditMode sampleClasses sampleEditMode None) in
  let off := fst (deactivateEditMode on None) in
  isActive off = false
  /\ container_classList (dashboard off) = ["highcharts-dashboard"%string]
  /\ cellToolbar off = Some {| toolbar_isVisible := false |}.
Proof.
  destruct (activate_then_deactivate sampleClasses sampleEditMode None None)
    as (Ha & Hc & _ & Ht & _).
  - simpl. intros [H | []]. discriminate H.
  - split; [exact Ha |]. split; [exact Hc |]. exact Ht.
Defined.

(** X20. [deactivateEditMode] touches only the active flag, the class
    list and the cell and row toolbars: layouts with their resizers, the
    options toolbar, the context menu and the context button are kept;
    and deactivating twice is deactivating once. *)
Theorem deactivateEditMode_frame (em : EditMode)
    (btn btn' : option HTMLDOMElement) :
  let em' := fst (deactivateEditMode em btn) in
  layouts (dashboard em') = layouts (dashboard em)
  /\ gui (dashboard em') = gui (dashboard em)
  /\ optionsToolbar em' = optionsToolbar em
  /\ contextMenu em' = contextMenu em
  /\ contextButtonElement em' = contextButtonElement em
  /\ fst (deactivateEditMode em' btn') = em'.
Proof.
  intros em'. subst em'. repeat split.
  destruct em as [a d cb cm ct rt ot]. unfold deactivateEditMode. simpl.
  rewrite (classList_remove_absent_id editModeEnabled
             (classList_remove editModeEnabled (container_classList d)))
    by apply classList_remove_absent.
  destruct ct, rt; reflexivity.
Qed.

(** X21. With a context menu, two clicks on the context button give back
    the state before the first one. *)
Theorem onContextBtnClick_twice cls (em : EditMode) :
  is_Some (contextMenu em) ->
  onContextBtnClick cls (onContextBtnClick cls em) = em.
Proof.
  intros [m Hm]. destruct em as [a d cb cm ct rt ot]. simpl in Hm. subst cm.
  unfold onContextBtnClick. simpl. unfold set_contextMenu, setVisible. simpl.
  rewrite negb_involutive. destruct m. reflexivity.
Qed.

Definition sampleMenuMode : EditMode :=
  onContextBtnClick sampleClasses sampleEditMode.

Lemma onContextBtnClick_twice_witness :
  onContextBtnClick sampleClasses
    (onContextBtnClick sampleClasses sampleMenuMode) = sampleMenuMode.
Proof.
  apply onContextBtnClick_twice. eexists. reflexivity.
Defined.

(** The active flag and the class of the container agree. *)
Definition inSync (em : EditMode) : Prop :=
  isActive em = true
  <-> In editModeEnabled (container_classList (dashboard em)).

(** X22. After every toggle the active flag and the class of the enabled
    edit mode on the container agree, whatever the state before; and a
    click on the context button keeps both as they are. *)
Theorem onEditModeToggle_in_sync cls (em : EditMode) (btn : HTMLDOMElement) :
  inSync (fst (onEditModeToggle cls em btn))
  /\ isActive (onContextBtnClick cls em) = isActive em
  /\ dashboard (onContextBtnClick cls em) = dashboard em.
Proof.
  split.
  - unfold inSync, onEditModeToggle, isActive.
    destruct (active em).
    + split; [discriminate |]. intros H. exfalso.
      revert H. apply classList_remove_absent.
    + split; intros _.
      * apply activateEditMode_class.
      * apply activateEditMode_active.
  - unfold onContextBtnClick, initContextMenu, isActive.
    destruct (contextMenu em) eqn:Em; simpl.
    + rewrite Em. split; reflexivity.
    + destruct (contextButtonElement em); simpl; [split; reflexivity |].
      rewrite Em. split; reflexivity.
Qed.

(** X23. A new context menu is placed under the context button with its
    right edge on the right edge of the button: it is 150 pixels wide, its
    top is the bottom of the button and its left edge plus its width is
    the right edge of the button. *)
Theorem initContextMenu_placement cls (em : EditMode)
    (b : HTMLDOMElement) :
  contextButtonElement em = Some b ->
  exists st,
    contextMenu (initContextMenu cls em)
    = Some (EditContextMenu_new cls em st)
    /\ style_width st = 150
    /\ style_top st = offsetTop b + offsetHeight b
    /\ style_left st + style_width st = offsetLeft b + offsetWidth b.
Proof.
  intros Hb. unfold initContextMenu. rewrite Hb. simpl.
  eexists. split; [reflexivity |]. simpl. repeat split. lia.
Qed.

Lemma initContextMenu_placement_witness :
  exists st,
    contextMenu (initContextMenu sampleClasses sampleEditMode)
    = Some (EditContextMenu_new sampleClasses sampleEditMode st)
    /\ style_width st = 150
    /\ style_top st = 30
    /\ style_left st + style_width st = 340.
Proof.
  exact (initContextMenu_placement sampleClasses sampleEditMode sampleButton
           eq_refl).
Defined.

End EditModeFacts.
